(** * XClamAV: settings store, quarantine manager and scanner wrapper

    A shallow embedding of [settings.py] (classes [XClamAVSettings] and
    [QuarantineManager]) and of [xclamav.py] (class [ClamAVWrapper]),
    followed by the properties of these classes.

    Python values are the values of a JSON document, dictionaries being
    finite maps.  The operating system is a finite map from paths to
    nodes, together with a clock and the standard output.  Python
    exceptions are explicit results. *)

From Stdlib Require Import ZArith String Ascii List Bool Lia.
From stdpp Require Import base option list strings pretty gmap.

Set Warnings "-register-all".
Local Open Scope Z_scope.

(* ===================================================================== *)
(** ** Python values *)
(* ===================================================================== *)

Module Py.

(** The values [json.load] produces and [json.dump] accepts.  [JNull] is
    Python's [None].  A dictionary is a finite map with string keys: none
    of the modelled code depends on the order of its items. *)
Inductive json : Type :=
  | JNull
  | JBool (b : bool)
  | JNum (n : Z)
  | JStr (s : string)
  | JList (xs : list json)
  | JDict (items : gmap string json).

Abbreviation dict := (gmap string json).

(** The exception classes the modelled code can meet. *)
Inductive exn : Type :=
  | TypeError
  | AttributeError
  | ValueError
  | OverflowError
  | OSError.

Inductive result (A : Type) : Type :=
  | Ok (a : A)
  | Raise (e : exn).
Arguments Ok {A} a.
Arguments Raise {A} e.

Definition isinstance_dict (v : json) : bool :=
  match v with JDict _ => true | _ => false end.

(** Python truthiness, as used by [if value:]. *)
Definition truthy (v : json) : bool :=
  match v with
  | JNull => false
  | JBool b => b
  | JNum n => negb (n =? 0)
  | JStr s => negb (String.eqb s "")
  | JList xs => match xs with [] => false | _ => true end
  | JDict items => negb (Nat.eqb (size items) 0)
  end.

(** [d.get(key, default)] *)
Definition dict_get_default (key : string) (default : json) (d : dict) : json :=
  match d !! key with
  | Some v => v
  | None => default
  end.

(** [d.get(key)]: Python's [None] when the key is missing. *)
Definition dict_get (key : string) (d : dict) : json :=
  dict_get_default key JNull d.

(** The nesting of dictionaries, as a measure for recursion over the
    values of a dictionary. *)
Fixpoint dict_depth (v : json) {struct v} : nat :=
  match v with
  | JDict items => S (map_fold (fun _ v' acc => Nat.max (dict_depth v') acc) O items)
  | _ => O
  end.

End Py.
Export Py.

(* ===================================================================== *)
(** ** Paths (pathlib) *)
(* ===================================================================== *)

Module Pathlib.

(** A path is the list of its components below the root; the working
    directory is the root, so that relative and absolute spellings of a
    path denote the same node. *)
Abbreviation path := (list string).

(** Split a string at every ["/"]. *)
Fixpoint split_slash (acc : string) (s : string) : list string :=
  match s with
  | EmptyString => [acc]
  | String c rest =>
      if Ascii.eqb c "/"%char then acc :: split_slash "" rest
      else split_slash (acc +:+ String c "") rest
  end.

(** [Path(s)]: empty components and ["."] components are dropped. *)
Definition Path (s : string) : path :=
  filter (fun c => c <> "" /\ c <> ".") (split_slash "" s).

(** [p / s] for a string [s] that does not start with ["/"]. *)
Definition joinpath (p : path) (s : string) : path := p ++ Path s.

(** [str(p)] *)
Definition str (p : path) : string :=
  match p with
  | [] => "/"
  | _ => String.concat "" (map (fun c => "/" +:+ c) p)
  end.

(** [p.name] *)
Definition name (p : path) : string := List.last p "".

(** [p.parent] *)
Definition parent (p : path) : path := removelast p.

(** [s.rfind(".")], counted from the left; [None] for Python's [-1]. *)
Fixpoint rfind_dot (s : string) : option nat :=
  match s with
  | EmptyString => None
  | String c rest =>
      match rfind_dot rest with
      | Some i => Some (S i)
      | None => if Ascii.eqb c "."%char then Some O else None
      end
  end.

(** [PurePath.suffix] of a final component: the text from the last dot on,
    unless that dot is the first or the last character. *)
Definition suffix_of (nm : string) : string :=
  match rfind_dot nm with
  | Some i =>
      if (0 <? i)%nat && (i <? String.length nm - 1)%nat
      then substring i (String.length nm - i) nm
      else ""
  | None => ""
  end.

Definition suffix (p : path) : string := suffix_of (name p).

(** [PurePath.stem] of a final component: the name without its suffix. *)
Definition stem_of (nm : string) : string :=
  substring 0 (String.length nm - String.length (suffix_of nm)) nm.

(** [PurePath.with_suffix] on a final component, for a suffix that is empty
    or starts with a dot: an existing suffix is replaced, not extended. *)
Definition with_suffix_name (nm : string) (sfx : string) : string :=
  let old_suffix := suffix_of nm in
  if String.eqb old_suffix "" then nm +:+ sfx
  else substring 0 (String.length nm - String.length old_suffix) nm +:+ sfx.

(** [p.with_suffix(sfx)]; a path with an empty name raises [ValueError]. *)
Definition with_suffix (p : path) (sfx : string) : result path :=
  if String.eqb (name p) "" then Raise ValueError
  else Ok (parent p ++ [with_suffix_name (name p) sfx]).



(** [fnmatch(name, "*.info")] *)
Definition matches_info (nm : string) : bool :=
  (5 <=? String.length nm)%nat &&
  String.eqb (substring (String.length nm - 5) 5 nm) ".info".

End Pathlib.
Export Pathlib.

(* ===================================================================== *)
(** ** The operating system: files, clock, standard output *)
(* ===================================================================== *)

Module Os.

(** What a node holds.  The text of a regular file is kept only as far as
    [json.load] sees it: [Document doc] parses to [doc], [Data] is rejected
    by the parser. *)
Inductive content : Type :=
  | Directory
  | Data
  | Document (doc : json).

(** [st_mtime] is the modification time as [datetime.fromtimestamp] shows
    it: microseconds on the local wall clock, counted from 1970-01-01. *)
Record node : Type := mkNode {
  body : content;
  st_size : Z;
  st_mtime : Z
}.

(** A line written by [print(f"<prefix>: {e}")]. *)
Record message : Type := Printed { prefix : string; cause : exn }.

Record world : Type := mkWorld {
  nodes : gmap path node;
  read_only : bool;          (* the file system refuses every change *)
  now : Z;                   (* [datetime.now()], in microseconds *)
  stdout : list message
}.

(** Services of the Python runtime that are no part of the repository:
    the length of the text [json.dump(_, indent=2)] writes, and [repr] of
    a list or a dictionary. *)
Class Runtime : Type := {
  json_text_size : json -> Z;
  repr_container : json -> string
}.

(** Computations that read and change the world and may raise. *)
Definition M (A : Type) : Type := world -> result A * world.

Definition ret {A} (a : A) : M A := fun w => (Ok a, w).

Definition raise {A} (e : exn) : M A := fun w => (Raise e, w).

Definition bind {A B} (m : M A) (k : A -> M B) : M B :=
  fun w =>
    match m w with
    | (Ok a, w') => k a w'
    | (Raise e, w') => (Raise e, w')
    end.

(** [try: m  except Exception as e: handler(e)] *)
Definition try_except {A} (m : M A) (handler : exn -> M A) : M A :=
  fun w =>
    match m w with
    | (Ok a, w') => (Ok a, w')
    | (Raise e, w') => handler e w'
    end.

Definition lift {A} (r : result A) : M A := fun w => (r, w).

Definition get_world : M world := fun w => (Ok w, w).

Definition set_nodes (m : gmap path node) : M unit :=
  fun w => (Ok tt, mkWorld m (read_only w) (now w) (stdout w)).

(** [print(f"<pre>: {e}")] *)
Definition print (pre : string) (e : exn) : M unit :=
  fun w => (Ok tt, mkWorld (nodes w) (read_only w) (now w)
                           (stdout w ++ [Printed pre e])).

Declare Scope os_scope.
Delimit Scope os_scope with os.
Notation "'let*' x ':=' m 'in' k" := (bind m (fun x => k))
  (at level 10, x name, m at level 100, k at level 200) : os_scope.
Local Open Scope os_scope.

Definition is_dir_in (m : gmap path node) (p : path) : bool :=
  match p with
  | [] => true
  | _ => match m !! p with
         | Some n => match body n with Directory => true | _ => false end
         | None => false
         end
  end.

Definition exists_in (m : gmap path node) (p : path) : bool :=
  match p with
  | [] => true
  | _ => bool_decide (is_Some (m !! p))
  end.

(** [p.exists()] *)
Definition exists_ (p : path) : M bool :=
  let* w := get_world in ret (exists_in (nodes w) p).

(** [p.stat()] *)
Definition stat (p : path) : M node :=
  let* w := get_world in
  match nodes w !! p with
  | Some n => ret n
  | None => raise OSError
  end.

(** Every change of the file system goes through this check. *)
Definition writable : M unit :=
  let* w := get_world in if read_only w then raise OSError else ret tt.

(** [mkdir(parents=True, exist_ok=True)], one component at a time: [made]
    is the part of the path already known to be a directory. *)
Fixpoint mkdir_from (made : path) (todo : list string) : M unit :=
  match todo with
  | [] => ret tt
  | c :: rest =>
      let q := made ++ [c] in
      let* w := get_world in
      match nodes w !! q with
      | Some n =>
          match body n with
          | Directory => mkdir_from q rest
          | _ => raise OSError
          end
      | None =>
          let* _ := writable in
          let* _ := set_nodes (<[q := mkNode Directory 4096 (now w)]> (nodes w)) in
          mkdir_from q rest
      end
  end.

Definition mkdir_parents (p : path) : M unit := mkdir_from [] p.

(** Every directory on the way from [made] down [todo] is there. *)
Fixpoint dirs_from (m : gmap path node) (made : path) (todo : list string) : bool :=
  match todo with
  | [] => true
  | c :: rest => is_dir_in m (made ++ [c]) && dirs_from m (made ++ [c]) rest
  end.

(** The nodes strictly or not strictly below [src], moved below [dst]. *)
Definition move_subtree (src dst : path) (m : gmap path node) : gmap path node :=
  let inside := filter (fun '(p, _) => src `prefix_of` p) m in
  let outside := filter (fun '(p, _) => ~ src `prefix_of` p) m in
  kmap (fun p => dst ++ drop (length src) p) inside ∪ outside.

Definition has_children (m : gmap path node) (p : path) : bool :=
  bool_decide (Exists (fun q => parent q = p /\ q <> []) (map fst (map_to_list m))).

(** [src.rename(dst)], POSIX [rename(2)]: the modification time and the
    size travel with the node. *)
Definition rename (src dst : path) : M unit :=
  let* w := get_world in
  let m := nodes w in
  match m !! src with
  | None => raise OSError
  | Some n =>
      let* _ := writable in
      if negb (is_dir_in m (parent dst)) then raise OSError
      else if bool_decide (dst = []) then raise OSError
      else if bool_decide (src = dst) then ret tt
      else
        match body n, m !! dst with
        | Directory, Some d =>
            match body d with
            | Directory =>
                if has_children m dst then raise OSError
                else set_nodes (move_subtree src dst (delete dst m))
            | _ => raise OSError
            end
        | Directory, None =>
            if bool_decide (src `prefix_of` dst) then raise OSError
            else set_nodes (move_subtree src dst m)
        | _, Some d =>
            match body d with
            | Directory => raise OSError
            | _ => set_nodes (<[dst := n]> (delete src m))
            end
        | _, None => set_nodes (<[dst := n]> (delete src m))
        end
  end.

(** [p.unlink()] *)
Definition unlink (p : path) : M unit :=
  let* w := get_world in
  match nodes w !! p with
  | None => raise OSError
  | Some n =>
      let* _ := writable in
      match body n with
      | Directory => raise OSError
      | _ => set_nodes (delete p (nodes w))
      end
  end.

(** [with open(p, 'r') as f: json.load(f)] *)
Definition read_json (p : path) : M json :=
  let* w := get_world in
  match nodes w !! p with
  | None => raise OSError
  | Some n =>
      match body n with
      | Directory => raise OSError
      | Data => raise ValueError
      | Document doc => ret doc
      end
  end.

(** [with open(p, 'w') as f: json.dump(doc, f, indent=2)] *)
Definition write_json `{Runtime} (p : path) (doc : json) : M unit :=
  let* w := get_world in
  let* _ := writable in
  if is_dir_in (nodes w) p then raise OSError
  else if negb (is_dir_in (nodes w) (parent p)) then raise OSError
  else set_nodes (<[p := mkNode (Document doc) (json_text_size doc) (now w)]> (nodes w)).

(** [list(d.glob("*.info"))]: the entries of [d] whose name ends in
    [".info"]; nothing when [d] is no directory. *)
Definition glob_info (d : path) : M (list path) :=
  let* w := get_world in
  if is_dir_in (nodes w) d
  then ret (filter (fun p => parent p = d /\ p <> [] /\ matches_info (name p) = true)
                   (map fst (map_to_list (nodes w))))
  else ret [].

End Os.
Export Os.

(* ===================================================================== *)
(** ** settings.py: class XClamAVSettings *)
(* ===================================================================== *)

Module XClamAVSettings.

Local Open Scope os_scope.

(** The attributes of an instance. *)
Record t : Type := mkSettings {
  config_dir : path;
  config_file : path;
  default_settings : dict;
  settings : dict
}.

(** The dictionary literal of [load_settings]; [home] is [Path.home()]. *)
Definition default_settings_literal (home : path) : dict :=
  list_to_map [
    ("scan_options", JDict (list_to_map [
        ("scan_archives", JBool true);
        ("scan_pdf", JBool true);
        ("scan_ole2", JBool true);
        ("scan_html", JBool true);
        ("scan_pe", JBool true);
        ("scan_elf", JBool true);
        ("detect_pua", JBool false);
        ("scan_hidden", JBool false);
        ("max_file_size", JNum 20);
        ("max_recursion", JNum 15) ]));
    ("real_time", JDict (list_to_map [
        ("enabled", JBool false);
        ("watch_downloads", JBool true);
        ("watch_home", JBool false);
        ("watch_removable", JBool true);
        ("prevention_mode", JBool false) ]));
    ("updates", JDict (list_to_map [
        ("auto_update", JBool true);
        ("update_frequency", JStr "daily");
        ("check_on_startup", JBool true) ]));
    ("notifications", JDict (list_to_map [
        ("show_scan_complete", JBool true);
        ("show_threats_found", JBool true);
        ("show_update_complete", JBool false);
        ("system_tray", JBool true) ]));
    ("quarantine", JDict (list_to_map [
        ("auto_quarantine", JBool true);
        ("quarantine_path",
           JStr (str (home ++ [".local"; "share"; "xclamav"; "quarantine"])));
        ("retention_days", JNum 30) ]));
    ("interface", JDict (list_to_map [
        ("start_minimized", JBool false);
        ("close_to_tray", JBool true);
        ("dark_mode", JStr "auto");
        ("language", JStr "auto") ]));
    ("exclusions", JDict (list_to_map [
        ("paths", JList []);
        ("extensions", JList [JStr ".tmp"; JStr ".log"]);
        ("processes", JList []) ]));
    ("advanced", JDict (list_to_map [
        ("scan_threads", JNum 4);
        ("memory_limit", JNum 512);
        ("database_mirror", JStr "auto");
        ("log_level", JStr "info") ]))
  ].

#[global] Arguments default_settings_literal : simpl never.

(** The default mapping has two levels: no entry of a category is itself
    a dictionary. *)
Definition flat_categories (d : dict) : bool :=
  forallb (fun kv =>
    match snd kv with
    | JDict sub => forallb (fun kv' => negb (isinstance_dict (snd kv'))) (map_to_list sub)
    | _ => true
    end) (map_to_list d).

(** The body of [_merge_settings] for a dictionary [loaded]: [result]
    starts as a copy of the defaults and every item of [loaded] is merged
    or stored into it. *)
Fixpoint merge_items (result : dict) (loaded : json) {struct loaded} : dict :=
  match loaded with
  | JDict items =>
      map_fold (fun key value result =>
        match result !! key, value with
        | Some (JDict sub), JDict _ =>
            <[key := JDict (merge_items sub value)]> result
        | _, _ => <[key := value]> result
        end) result items
  | _ => result
  end.

(** [_merge_settings(default, loaded)]; a [loaded] that is no dictionary
    has no [items] attribute. *)
Definition _merge_settings (default : dict) (loaded : json) : result dict :=
  match loaded with
  | JDict _ => Ok (merge_items default loaded)
  | _ => Raise AttributeError
  end.

(** A mapping that merging with the defaults leaves as it is. *)
Definition merged_with_defaults (home : path) (s : dict) : Prop :=
  merge_items (default_settings_literal home) (JDict s) = s.

Definition with_settings (self : t) (d : dict) : t :=
  mkSettings (config_dir self) (config_file self) (default_settings self) d.

Definition ensure_config_dir (self : t) : M unit :=
  mkdir_parents (config_dir self).

Definition load_settings (home : path) (self : t) : M t :=
  let self :=
    mkSettings (config_dir self) (config_file self)
               (default_settings_literal home) (settings self) in
  let* found := exists_ (config_file self) in
  if found then
    try_except
      (let* loaded_settings := read_json (config_file self) in
       let* merged := lift (_merge_settings (default_settings self) loaded_settings) in
       ret (with_settings self merged))
      (fun e =>
         let* _ := print "Error loading settings" e in
         ret (with_settings self (default_settings self)))
  else ret (with_settings self (default_settings self)).

(** [XClamAVSettings()] *)
Definition init (home : path) : M t :=
  let config_dir := home ++ [".config"; "xclamav"] in
  let self := mkSettings config_dir (config_dir ++ ["settings.json"]) ∅ ∅ in
  let* _ := ensure_config_dir self in
  load_settings home self.

Definition save_settings `{Runtime} (self : t) : M unit :=
  try_except
    (write_json (config_file self) (JDict (settings self)))
    (fun e => print "Error saving settings" e).

(** [get(category, key=None)]; the instance is returned next to the
    result, as the method leaves it. *)
Definition get (self : t) (category : string) (key : option string)
  : result json * t :=
  match key with
  | None => (Ok (dict_get_default category (JDict ∅) (settings self)), self)
  | Some key =>
      match dict_get_default category (JDict ∅) (settings self) with
      | JDict d => (Ok (dict_get key d), self)
      | _ => (Raise AttributeError, self)
      end
  end.

(** [set(category, key, value)]; item assignment into a value that is no
    dictionary raises [TypeError] before anything has changed. *)
Definition set `{Runtime} (self : t) (category : string) (key : string)
    (value : json) : world -> result unit * t * world :=
  fun w =>
    let settings1 :=
      match settings self !! category with
      | Some _ => settings self
      | None => <[category := JDict ∅]> (settings self)
      end in
    match settings1 !! category with
    | Some (JDict d) =>
        let self' :=
          with_settings self (<[category := JDict (<[key := value]> d)]> settings1) in
        let '(r, w') := save_settings self' w in
        (r, self', w')
    | _ => (Raise TypeError, self, w)
    end.

End XClamAVSettings.

(* ===================================================================== *)
(** ** datetime *)
(* ===================================================================== *)

Module Datetime.

Definition microseconds_per_day : Z := 86400000000.

(** [datetime.min] and [datetime.max], in microseconds from 1970-01-01. *)
Definition datetime_min : Z := -62135596800000000.
Definition datetime_max : Z := 253402300799999999.

(** [timedelta(days=v)], as a number of days: [bool] is a subclass of
    [int]; any other value that is no number is a [TypeError]; more than
    999999999 days are an [OverflowError]. *)
Definition timedelta_days (v : json) : result Z :=
  match v with
  | JNum n =>
      if (Z.abs n <=? 999999999) then Ok n else Raise OverflowError
  | JBool b => Ok (if b then 1 else 0)
  | _ => Raise TypeError
  end.

(** [t - timedelta(days=d)] *)
Definition minus_days (t : Z) (d : Z) : result Z :=
  let r := t - d * microseconds_per_day in
  if (datetime_min <=? r) && (r <=? datetime_max) then Ok r
  else Raise OverflowError.

(** The civil date of a day number (days from 1970-01-01). *)
Definition civil_from_days (z : Z) : Z * Z * Z :=
  let z := z + 719468 in
  let era := z / 146097 in
  let doe := z - era * 146097 in
  let yoe := (doe - doe / 1460 + doe / 36524 - doe / 146096) / 365 in
  let doy := doe - (365 * yoe + yoe / 4 - yoe / 100) in
  let mp := (5 * doy + 2) / 153 in
  let d := doy - (153 * mp + 2) / 5 + 1 in
  let m := if mp <? 10 then mp + 3 else mp - 9 in
  let y := yoe + era * 400 + (if m <=? 2 then 1 else 0) in
  (y, m, d).

(** A number written with at least [width] digits, zero padded. *)
Definition zero_padded (width : nat) (n : Z) : string :=
  let digits := pretty n in
  String.concat "" (replicate (width - String.length digits) "0") +:+ digits.

(** [t.strftime("%Y%m%d_%H%M%S")] *)
Definition strftime (t : Z) : string :=
  let '(y, m, d) := civil_from_days (t / microseconds_per_day) in
  let secs := (t mod microseconds_per_day) / 1000000 in
  zero_padded 4 y +:+ zero_padded 2 m +:+ zero_padded 2 d +:+ "_" +:+
  zero_padded 2 (secs / 3600) +:+ zero_padded 2 (secs mod 3600 / 60) +:+
  zero_padded 2 (secs mod 60).

#[global] Arguments strftime : simpl never.

End Datetime.
Export Datetime.

(* ===================================================================== *)
(** ** settings.py: class QuarantineManager *)
(* ===================================================================== *)

Module QuarantineManager.

Local Open Scope os_scope.

(** The manager keeps a reference to the settings object, not a copy: the
    methods that read it take the object as it is at the time of the call. *)
Record t : Type := mkManager {
  quarantine_path : path
}.

Definition ensure_quarantine_dir (self : t) : M unit :=
  mkdir_parents (quarantine_path self).

(** [QuarantineManager(settings)] *)
Definition init (settings : XClamAVSettings.t) : M t :=
  let* p := lift (fst (XClamAVSettings.get settings "quarantine" (Some "quarantine_path"))) in
  match p with
  | JStr s =>
      let self := mkManager (Path s) in
      let* _ := ensure_quarantine_dir self in
      ret self
  | _ => raise TypeError
  end.

Definition quarantine_file `{Runtime} (self : t) (source_path : string)
    (threat_name : string) : M bool :=
  try_except
    (let source := Path source_path in
     let* found := exists_ source in
     if negb found then ret false
     else
       let* w := get_world in
       let timestamp := strftime (now w) in
       let quarantine_name :=
         timestamp +:+ "_" +:+ name source +:+ "_" +:+ threat_name in
       let quarantine_file := joinpath (quarantine_path self) quarantine_name in
       let* _ := rename source quarantine_file in
       let* info_file := lift (with_suffix quarantine_file ".info") in
       let* st := stat quarantine_file in
       let info := JDict (list_to_map [
           ("original_path", JStr (str source));
           ("threat_name", JStr threat_name);
           ("quarantine_date", JStr timestamp);
           ("file_size", JNum (st_size st)) ]) in
       let* _ := write_json info_file info in
       ret true)
    (fun e => let* _ := print "Error quarantining file" e in ret false).

(** One turn of the loop of [list_quarantined_files]. *)
Definition list_entry (quarantined : list json) (info_file : path)
  : M (list json) :=
  try_except
    (let* info := read_json info_file in
     let* quarantine_file := lift (with_suffix info_file "") in
     let* found := exists_ quarantine_file in
     if found then
       match info with
       | JDict d =>
           ret (quarantined ++
                [JDict (<["quarantine_file" := JStr (str quarantine_file)]> d)])
       | _ => raise TypeError
       end
     else ret quarantined)
    (fun e => let* _ := print "Error reading quarantine info" e in ret quarantined).


Fixpoint list_loop (quarantined : list json) (info_files : list path)
  : M (list json) :=
  match info_files with
  | [] => ret quarantined
  | info_file :: rest =>
      let* quarantined := list_entry quarantined info_file in
      list_loop quarantined rest
  end.

Definition list_quarantined_files (self : t) : M (list json) :=
  let* info_files := glob_info (quarantine_path self) in
  list_loop [] info_files.

Definition restore_file (self : t) (quarantine_file : string)
    (original_path : string) : M bool :=
  try_except
    (let qfile := Path quarantine_file in
     let original := Path original_path in
     let* _ := mkdir_parents (parent original) in
     let* _ := rename qfile original in
     let* info_file := lift (with_suffix qfile ".info") in
     let* found := exists_ info_file in
     let* _ := (if found then unlink info_file else ret tt) in
     ret true)
    (fun e => let* _ := print "Error restoring file" e in ret false).

Definition delete_quarantined_file (self : t) (quarantine_file : string) : M bool :=
  try_except
    (let qfile := Path quarantine_file in
     let* info_file := lift (with_suffix qfile ".info") in
     let* found := exists_ qfile in
     let* _ := (if found then unlink qfile else ret tt) in
     let* found := exists_ info_file in
     let* _ := (if found then unlink info_file else ret tt) in
     ret true)
    (fun e => let* _ := print "Error deleting quarantined file" e in ret false).


(** One turn of the loop of [cleanup_old_files]. *)
Definition cleanup_entry (self : t) (cutoff_date : Z) (info_file : path) : M unit :=
  try_except
    (let* st := stat info_file in
     let file_time := st_mtime st in
     if file_time <? cutoff_date then
       let* quarantine_file := lift (with_suffix info_file "") in
       let* _ := delete_quarantined_file self (str quarantine_file) in
       ret tt
     else ret tt)
    (fun e => print "Error during cleanup" e).

Fixpoint cleanup_loop (self : t) (cutoff_date : Z) (info_files : list path) : M unit :=
  match info_files with
  | [] => ret tt
  | info_file :: rest =>
      let* _ := cleanup_entry self cutoff_date info_file in
      cleanup_loop self cutoff_date rest
  end.

Definition cleanup_old_files (self : t) (settings : XClamAVSettings.t) : M unit :=
  let* retention_days :=
    lift (fst (XClamAVSettings.get settings "quarantine" (Some "retention_days"))) in
  let* days := lift (timedelta_days retention_days) in
  let* w := get_world in
  let* cutoff_date := lift (minus_days (now w) days) in
  let* info_files := glob_info (quarantine_path self) in
  cleanup_loop self cutoff_date info_files.

End QuarantineManager.

(* ===================================================================== *)
(** ** xclamav.py: class ClamAVWrapper *)
(* ===================================================================== *)

Module ClamAVWrapper.

(** The attributes of an instance; a child process is named by its
    position in the table of processes. *)
Record t : Type := mkWrapper {
  scanning : bool;
  scan_process : option nat;
  scan_options : dict
}.

(** [ClamAVWrapper()] *)
Definition init : t := mkWrapper false None ∅.


(** [str(v)], as an f-string formats a value. *)
Definition py_str `{Runtime} (v : json) : string :=
  match v with
  | JNull => "None"
  | JBool true => "True"
  | JBool false => "False"
  | JNum n => pretty n
  | JStr s => s
  | JList _ | JDict _ => repr_container v
  end.

Definition build_scan_command `{Runtime} (self : t) (path : string) : list string :=
  let cmd := ["clamscan"] in
  let cmd := cmd ++
    [if truthy (dict_get_default "scan_archives" (JBool true) (scan_options self))
     then "--scan-archive=yes" else "--scan-archive=no"] in
  let cmd := cmd ++
    [if truthy (dict_get_default "scan_pdf" (JBool true) (scan_options self))
     then "--scan-pdf=yes" else "--scan-pdf=no"] in
  let cmd := cmd ++
    [if truthy (dict_get_default "scan_ole2" (JBool true) (scan_options self))
     then "--scan-ole2=yes" else "--scan-ole2=no"] in
  let cmd := cmd ++
    [if truthy (dict_get_default "scan_html" (JBool true) (scan_options self))
     then "--scan-html=yes" else "--scan-html=no"] in
  let cmd := cmd ++
    [if truthy (dict_get_default "scan_pe" (JBool true) (scan_options self))
     then "--scan-pe=yes" else "--scan-pe=no"] in
  let cmd := cmd ++
    [if truthy (dict_get_default "scan_elf" (JBool true) (scan_options self))
     then "--scan-elf=yes" else "--scan-elf=no"] in
  let cmd := cmd ++
    [if truthy (dict_get_default "detect_pua" (JBool false) (scan_options self))
     then "--detect-pua=yes" else "--detect-pua=no"] in
  let cmd := cmd ++
    (if negb (truthy (dict_get_default "scan_hidden" (JBool false) (scan_options self)))
     then ["--exclude-dir=^\."] else []) in
  let max_size := dict_get_default "max_file_size" (JNum 20) (scan_options self) in
  let cmd := cmd ++ ["--max-filesize=" +:+ py_str max_size +:+ "M"] in
  let max_recursion := dict_get_default "max_recursion" (JNum 15) (scan_options self) in
  let cmd := cmd ++ ["--max-dir-recursion=" +:+ py_str max_recursion] in
  cmd ++ ["--recursive"; "--infected"; "--bell"; path].




(** What a call of [scan_path] does besides returning, in program order. *)
Inductive effect : Type :=
  | SetScanning (b : bool)          (* [self.scanning = b] *)
  | StartThread (path : string).    (* [thread.start()], target [run_scan] *)

(** [scan_path(path, callback, progress_callback)], up to the return: the
    instance afterwards, the effects in order, the value returned. *)
Definition scan_path (self : t) (path : string) : t * list effect * bool :=
  if scanning self then (self, [], false)
  else
    (mkWrapper true (scan_process self) (scan_options self),
     [SetScanning true; StartThread path],
     true).

(** *** The wrapper with its worker threads and child processes *)

(** Where a worker thread stands in [run_scan]. *)
Inductive worker : Type :=
  | Started (path : string)   (* started, [Popen] not yet called *)
  | Reading (child : nat)     (* inside [readline()] on the child's stdout *)
  | Finished.

Inductive status : Type :=
  | Running
  | Exited (returncode : Z)
  | Terminated.               (* ended by [terminate()] *)

Record process : Type := mkProcess {
  cmd : list string;
  state : status
}.

Record system : Type := mkSystem {
  wrapper : t;
  threads : list worker;      (* every worker ever started *)
  processes : list process;   (* every child ever spawned *)
  posted : list bool          (* [success] of the completions handed to the UI *)
}.

Definition initial : system := mkSystem init [] [] [].

Definition is_running (p : process) : bool :=
  match state p with Running => true | _ => false end.

Definition running_scans (s : system) : nat :=
  length (filter (fun p => is_running p = true) (processes s)).




Definition set_status (st : status) (p : process) : process :=
  mkProcess (cmd p) st.

(** The [except] branch of [run_scan], and its regular end. *)
Definition finish (s : system) (tid : nat) (success : bool) : system :=
  mkSystem (mkWrapper false None (scan_options (wrapper s)))
           (<[tid := Finished]> (threads s))
           (processes s)
           (posted s ++ [success]).

(** The moves of the user interface, of the workers and of the children. *)
Inductive label : Type :=
  | CallScanPath (path : string)   (* the UI thread calls [scan_path] *)
  | CallStopScan                   (* the UI thread calls [stop_scan] *)
  | Popen (tid : nat)              (* a worker builds the command and spawns *)
  | PopenFails (tid : nat)         (* [subprocess.Popen] raises *)
  | ReadLine (tid : nat)           (* [readline()] returns a line *)
  | ReadEof (tid : nat)            (* [readline()] returns [''] *)
  | ChildExit (pid : nat) (returncode : Z).

Definition step `{Runtime} (l : label) (s : system) : option system :=
  match l with
  | CallScanPath path =>
      let '(self, effects, _) := scan_path (wrapper s) path in
      Some (mkSystem self
              (threads s ++
               omap (fun e => match e with
                              | StartThread p => Some (Started p)
                              | _ => None
                              end) effects)
              (processes s) (posted s))
  | CallStopScan =>
      match scan_process (wrapper s) with
      | Some pid =>
          Some (mkSystem (mkWrapper false None (scan_options (wrapper s)))
                  (threads s)
                  (alter (fun p => if is_running p then set_status Terminated p else p)
                         pid (processes s))
                  (posted s))
      | None => Some s
      end
  | Popen tid =>
      match threads s !! tid with
      | Some (Started path) =>
          let pid := length (processes s) in
          Some (mkSystem
                  (mkWrapper (scanning (wrapper s)) (Some pid) (scan_options (wrapper s)))
                  (<[tid := Reading pid]> (threads s))
                  (processes s ++ [mkProcess (build_scan_command (wrapper s) path) Running])
                  (posted s))
      | _ => None
      end
  | PopenFails tid =>
      match threads s !! tid with
      | Some (Started _) => Some (finish s tid false)
      | _ => None
      end
  | ReadLine tid =>
      match threads s !! tid with
      | Some (Reading _) =>
          (* the next turn of the loop reads [self.scan_process] again *)
          match scan_process (wrapper s) with
          | Some pid => Some (mkSystem (wrapper s) (<[tid := Reading pid]> (threads s))
                                (processes s) (posted s))
          | None => Some (finish s tid false)
          end
      | _ => None
      end
  | ReadEof tid =>
      match threads s !! tid with
      | Some (Reading child) =>
          match processes s !! child with
          | Some p =>
              if is_running p then None
              else
                (* [self.scan_process.poll()] on the attribute as it is now *)
                match scan_process (wrapper s) with
                | None => Some (finish s tid false)
                | Some pid =>
                    match state <$> processes s !! pid with
                    | Some Running =>
                        Some (mkSystem (wrapper s) (<[tid := Reading pid]> (threads s))
                                (processes s) (posted s))
                    | Some (Exited rc) => Some (finish s tid (rc =? 0))
                    | Some Terminated => Some (finish s tid false)
                    | None => None
                    end
                end
          | None => None
          end
      | _ => None
      end
  | ChildExit pid rc =>
      match processes s !! pid with
      | Some p =>
          if is_running p
          then Some (mkSystem (wrapper s) (threads s)
                       (<[pid := set_status (Exited rc) p]> (processes s)) (posted s))
          else None
      | None => None
      end
  end.

Fixpoint run `{Runtime} (ls : list label) (s : system) : option system :=
  match ls with
  | [] => Some s
  | l :: rest =>
      match step l s with
      | Some s' => run rest s'
      | None => None
      end
  end.

(** A scan is started and stopped, a second one is started while the
    first worker has not yet seen the end of its child, and a third one
    after that worker has cleared the flag. *)
Definition stop_and_restart : list label :=
  [CallScanPath "/home/u/a"; Popen 0%nat; CallStopScan;
   CallScanPath "/home/u/b"; ReadEof 0%nat; Popen 1%nat;
   CallScanPath "/home/u/c"; Popen 2%nat].

(** The states the wrapper can get into from its construction. *)
Definition reachable `{Runtime} (s : system) : Prop :=
  exists ls, run ls initial = Some s.

End ClamAVWrapper.

(* ===================================================================== *)
(** ** Sample data for the closed examples *)
(* ===================================================================== *)

Module Samples.

(** A runtime whose serializer writes 2 bytes per document. *)
Definition plain_runtime : Runtime :=
  {| json_text_size := fun _ => 2; repr_container := fun _ => "{}" |}.

Definition home : path := ["home"; "u"].

Definition folder : node := mkNode Directory 4096 0.

(** 2024-01-01 12:00:00 *)
Definition noon : Z := 1704110400000000.

Definition config_file : path := home ++ [".config"; "xclamav"; "settings.json"].

Definition quarantine_dir : path :=
  home ++ [".local"; "share"; "xclamav"; "quarantine"].

(** A home directory with the directories the two classes create. *)
Definition skeleton : gmap path node :=
  list_to_map [
    (["home"], folder);
    (home, folder);
    (home ++ [".config"], folder);
    (home ++ [".config"; "xclamav"], folder);
    (home ++ [".local"], folder);
    (home ++ [".local"; "share"], folder);
    (home ++ [".local"; "share"; "xclamav"], folder);
    (quarantine_dir, folder) ].

Definition world_with (files : list (path * node)) (ro : bool) (t : Z) : world :=
  mkWorld (list_to_map files ∪ skeleton) ro t [].

(** A settings file that sets one scan option. *)
Definition partial_file : node :=
  mkNode (Document (JDict {[ "scan_options" := JDict {[ "scan_pdf" := JBool false ]} ]}))
         60 0.

(** A settings file whose [scan_options] entry is a number. *)
Definition odd_file : node :=
  mkNode (Document (JDict {[ "scan_options" := JNum 5 ]})) 24 0.

Definition store (d : dict) : XClamAVSettings.t :=
  XClamAVSettings.mkSettings (home ++ [".config"; "xclamav"]) config_file
    (XClamAVSettings.default_settings_literal home) d.

Definition manager : QuarantineManager.t :=
  QuarantineManager.mkManager quarantine_dir.

(** An infected file of 68 bytes. *)
Definition sample : node := mkNode Data 68 1000.

(** The sidecar [quarantine_file] writes for [sample], moved at [noon]
    from [original_path] and reported as [threat_name]. *)
Definition sidecar (original_path threat_name : string) : node :=
  mkNode (Document (JDict (list_to_map [
            ("original_path", JStr original_path);
            ("threat_name", JStr threat_name);
            ("quarantine_date", JStr "20240101_120000");
            ("file_size", JNum 68) ])))
         2 noon.

Definition five_days : Z := 5 * microseconds_per_day.

(** A home directory with one infected file. *)
Definition infected_world : world :=
  world_with [(home ++ ["virus.exe"], sample)] false noon.

(** The same with a file name that has two dots. *)
Definition dotted_world : world :=
  world_with [(home ++ ["my.file.txt"], sample)] false noon.

(** The world [w] five days later. *)
Definition later (w : world) : world :=
  mkWorld (nodes w) (read_only w) (now w + five_days) (stdout w).

(** A file quarantined under a name without a dot, with its sidecar. *)
Definition quarantined_plain : path :=
  quarantine_dir ++ ["20240101_120000_virus_Eicar"].

Definition sidecar_plain : path :=
  quarantine_dir ++ ["20240101_120000_virus_Eicar.info"].

Definition plain_world : world :=
  world_with [(quarantined_plain, sample);
              (sidecar_plain, sidecar "/home/u/back/virus" "Eicar")]
             false (noon + five_days).

End Samples.

(* ===================================================================== *)
(** ** Facts about paths *)
(* ===================================================================== *)

Module PathFacts.

Lemma append_cons (c : ascii) (s t : string) :
  String c s +:+ t = String c (s +:+ t).
Proof. reflexivity. Qed.

Lemma length_append (s t : string) :
  String.length (s +:+ t) = (String.length s + String.length t)%nat.
Proof.
  induction s as [|c s IH]; [done|]. rewrite append_cons. cbn. by rewrite IH.
Qed.

Lemma append_empty_r (s : string) : s +:+ "" = s.
Proof. induction s as [|c s IH]; [done|]. by rewrite append_cons, IH. Qed.

Lemma substring_append_l (s t : string) :
  substring 0 (String.length s) (s +:+ t) = s.
Proof.
  induction s as [|c s IH].
  - by destruct t.
  - rewrite append_cons. cbn. by rewrite IH.
Qed.

Lemma substring_append_r (s t : string) (n : nat) :
  substring (String.length s) n (s +:+ t) = substring 0 n t.
Proof. induction s as [|c s IH]; [done|]. rewrite append_cons. exact IH. Qed.

Lemma length_substring (i n : nat) (s : string) :
  (i + n <= String.length s)%nat -> String.length (substring i n s) = n.
Proof.
  revert i n. induction s as [|c s IH]; intros i n Hle; cbn in Hle.
  - assert (i = O) by lia. assert (n = O) by lia. by subst.
  - destruct i as [|i]; cbn.
    + destruct n as [|n]; [done|]. cbn. f_equal. apply IH. lia.
    + apply IH. lia.
Qed.

Lemma rfind_dot_lt (s : string) (i : nat) :
  rfind_dot s = Some i -> (i < String.length s)%nat.
Proof.
  revert i. induction s as [|c s IH]; intros i; cbn; [done|].
  destruct (rfind_dot s) as [j|].
  - intros [= <-]. specialize (IH j eq_refl). lia.
  - destruct (Ascii.eqb c "."); [|done]. intros [= <-]. lia.
Qed.

Lemma rfind_dot_info (s : string) :
  rfind_dot (s +:+ ".info") = Some (String.length s).
Proof.
  induction s as [|c s IH]; [done|]. rewrite append_cons. cbn. by rewrite IH.
Qed.

(** A name that ends in [".info"] after something has the suffix
    [".info"]. *)
Lemma suffix_of_info (s : string) :
  s <> "" -> suffix_of (s +:+ ".info") = ".info".
Proof.
  intros Hs. unfold suffix_of. rewrite rfind_dot_info, length_append.
  assert (0 < String.length s)%nat as Hlen by (destruct s; [done|cbn; lia]).
  cbn [String.length].
  replace (0 <? String.length s)%nat with true
    by (symmetry; apply Nat.ltb_lt; lia).
  replace (String.length s <? String.length s + 5 - 1)%nat with true
    by (symmetry; apply Nat.ltb_lt; lia).
  cbn [andb].
  replace (String.length s + 5 - String.length s)%nat with 5%nat by lia.
  by rewrite substring_append_r.
Qed.

(** Taking [".info"] off again gives the name back. *)
Lemma with_suffix_name_strip (s : string) :
  s <> "" -> with_suffix_name (s +:+ ".info") "" = s.
Proof.
  intros Hs. unfold with_suffix_name. rewrite suffix_of_info by done.
  cbn [String.eqb Ascii.eqb]. rewrite length_append. cbn [String.length].
  replace (String.length s + 5 - 5)%nat with (String.length s) by lia.
  by rewrite substring_append_l, append_empty_r.
Qed.

Lemma with_suffix_name_stem (nm sfx : string) :
  with_suffix_name nm sfx = stem_of nm +:+ sfx.
Proof.
  unfold with_suffix_name, stem_of.
  destruct (String.eqb_spec (suffix_of nm) "") as [->|Hne]; [|done].
  cbn [String.length]. rewrite Nat.sub_0_r.
  rewrite <- (append_empty_r nm) at 3. by rewrite substring_append_l.
Qed.

Lemma stem_of_length (nm : string) :
  suffix_of nm <> "" ->
  (0 < String.length (stem_of nm) < String.length nm)%nat.
Proof.
  unfold stem_of, suffix_of. destruct (rfind_dot nm) as [i|] eqn:Hi; [|done].
  pose proof (rfind_dot_lt _ _ Hi) as Hlt.
  destruct (0 <? i)%nat eqn:H0; [|done].
  destruct (i <? String.length nm - 1)%nat eqn:H1; [|done]. cbn [andb].
  intros _. apply Nat.ltb_lt in H0.
  rewrite (length_substring i) by lia.
  rewrite length_substring by lia. lia.
Qed.

(** The sidecar name leads back to the name exactly when the name has no
    suffix. *)
Lemma sidecar_name_round_trip (nm : string) :
  nm <> "" ->
  (with_suffix_name (with_suffix_name nm ".info") "" = nm <-> suffix_of nm = "").
Proof.
  intros Hnm. rewrite (with_suffix_name_stem nm ".info").
  destruct (String.eqb_spec (suffix_of nm) "") as [Hs|Hs].
  - split; [done|]. intros _.
    assert (stem_of nm = nm) as ->.
    { unfold stem_of. rewrite Hs. cbn [String.length]. rewrite Nat.sub_0_r.
      rewrite <- (append_empty_r nm) at 2. by rewrite substring_append_l. }
    by apply with_suffix_name_strip.
  - pose proof (stem_of_length nm Hs) as Hlen.
    assert (stem_of nm <> "") as Hstem by (intros Heq; rewrite Heq in Hlen; cbn in Hlen; lia).
    rewrite with_suffix_name_strip by done.
    split; [|done]. intros Heq. rewrite Heq in Hlen. lia.
Qed.

(** *** Printing and parsing a path *)











End PathFacts.

(* ===================================================================== *)
(** ** Facts about the operating system *)
(* ===================================================================== *)

Module OsFacts.

Local Open Scope os_scope.

Lemma parent_snoc (p : path) (c : string) : parent (p ++ [c]) = p.
Proof. unfold parent. apply removelast_last. Qed.

Lemma read_json_world p w : snd (read_json p w) = w.
Proof.
  unfold read_json, bind, get_world, ret, raise. cbn.
  destruct (nodes w !! p) as [n|]; [|done]. by destruct (body n).
Qed.






(** *** What a successful call has done *)

Lemma bind_ok_inv {A B} (m : M A) (k : A -> M B) w b w' :
  bind m k w = (Ok b, w') ->
  exists a w1, m w = (Ok a, w1) /\ k a w1 = (Ok b, w').
Proof.
  unfold bind. destruct (m w) as [[a|e] w1]; [|done]. intros Hk. by exists a, w1.
Qed.





Lemma mkdir_from_inv made todo w w1 :
  mkdir_from made todo w = (Ok tt, w1) ->
  read_only w1 = read_only w /\ now w1 = now w /\ stdout w1 = stdout w /\
  (forall p n, nodes w !! p = Some n -> nodes w1 !! p = Some n).
Proof.
  revert made w. induction todo as [|c rest IH]; intros made w.
  - cbn. unfold ret. by intros [= <-].
  - cbn. unfold writable, bind, get_world, raise, ret, set_nodes. cbv beta iota zeta.
    destruct (nodes w !! (made ++ [c])) as [n|] eqn:Hq.
    + destruct (body n); [|done..]. intros Hrest.
      apply IH in Hrest as (H1 & H2 & H3 & H4). done.
    + destruct (read_only w) eqn:Hro; cbv beta iota; [done|].
      intros Hrest. apply IH in Hrest as (H1 & H2 & H3 & H4). cbn in *.
      split; [by rewrite H1|]. split; [done|]. split; [done|].
      intros p n Hp. apply H4. rewrite lookup_insert_ne; [done|].
      intros <-. by rewrite Hq in Hp.
Qed.





Lemma mkdir_from_creates made todo w w1 :
  mkdir_from made todo w = (Ok tt, w1) -> dirs_from (nodes w1) made todo = true.
Proof.
  revert made w. induction todo as [|c rest IH]; intros made w; [done|].
  cbn [mkdir_from dirs_from].
  unfold writable, bind, get_world, raise, ret, set_nodes. cbv beta iota zeta.
  destruct (nodes w !! (made ++ [c])) as [n|] eqn:Hq.
  - destruct (body n) eqn:Hb; [|done..]. intros Hrest.
    apply andb_true_iff. split; [|by eapply IH].
    apply mkdir_from_inv in Hrest as (_ & _ & _ & Hkeep).
    apply Hkeep in Hq. unfold is_dir_in. destruct (made ++ [c]); [done|].
    by rewrite Hq, Hb.
  - destruct (read_only w) eqn:Hro; cbv beta iota; [done|].
    intros Hrest. apply andb_true_iff. split; [|by eapply IH].
    apply mkdir_from_inv in Hrest as (_ & _ & _ & Hkeep).
    specialize (Hkeep (made ++ [c]) (mkNode Directory 4096 (now w))).
    cbn [nodes] in Hkeep. rewrite lookup_insert_eq in Hkeep.
    specialize (Hkeep eq_refl).
    unfold is_dir_in. destruct (made ++ [c]); [done|]. by rewrite Hkeep.
Qed.


End OsFacts.

(* ===================================================================== *)
(** ** Properties of the settings store *)
(* ===================================================================== *)

Module SettingsSpec.

Import XClamAVSettings OsFacts.
Local Open Scope os_scope.

(** What [_merge_settings] leaves under a key, case by case. *)
Lemma merge_items_lookup (default items : dict) (k : string) :
  merge_items default (JDict items) !! k =
    match items !! k with
    | None => default !! k
    | Some v =>
        match default !! k, v with
        | Some (JDict sub), JDict _ => Some (JDict (merge_items sub v))
        | _, _ => Some v
        end
    end.
Proof.
  cbn [merge_items]. revert k.
  apply (map_fold_weak_ind (fun r m => forall k,
    r !! k = match m !! k with
             | None => default !! k
             | Some v => match default !! k, v with
                         | Some (JDict sub), JDict _ => Some (JDict (merge_items sub v))
                         | _, _ => Some v
                         end
             end)).
  - intros k. by rewrite lookup_empty.
  - intros i x m r Hi IH k.
    pose proof (IH i) as Hri. rewrite Hi in Hri.
    destruct (decide (i = k)) as [->|Hne].
    + rewrite lookup_insert_eq. rewrite Hri.
      destruct (default !! k) as [[]|]; destruct x; by rewrite lookup_insert_eq.
    + rewrite (lookup_insert_ne m) by done. rewrite <- IH.
      destruct (r !! i) as [[]|]; destruct x; by rewrite lookup_insert_ne.
Qed.

(** Loading a file that holds a dictionary stores the merge. *)
Lemma load_settings_document home self w file (loaded : dict) :
  nodes w !! config_file self = Some file ->
  body file = Document (JDict loaded) ->
  load_settings home self w =
    (Ok (mkSettings (config_dir self) (config_file self)
           (default_settings_literal home)
           (merge_items (default_settings_literal home) (JDict loaded))), w).
Proof.
  intros Hfile Hbody.
  unfold load_settings, bind, exists_, get_world, ret, try_except, read_json, lift.
  cbn. unfold exists_in.
  assert (Hex : (match config_file self with
                 | [] => true
                 | _ => bool_decide (is_Some (nodes w !! config_file self))
                 end) = true).
  { destruct (config_file self); [done|]. rewrite Hfile. by apply bool_decide_eq_true. }
  rewrite Hex. cbn. rewrite Hfile, Hbody. reflexivity.
Qed.

(** C1.  Merging a loaded dictionary into any default mapping succeeds and
    the result has every key of the defaults; under a key where both sides
    hold a dictionary it holds their merge, computed by the same function;
    under every other key of the loaded dictionary it holds the loaded
    value, whether or not the defaults have the key; keys the loaded
    dictionary lacks keep their default.  [load_settings] stores this merge
    of the hard-coded defaults with the dictionary found in the file. *)
Theorem merge_settings_spec (default loaded : dict) :
  exists merged : dict,
    _merge_settings default (JDict loaded) = Ok merged /\
    (forall k, is_Some (default !! k) -> is_Some (merged !! k)) /\
    (forall k sub l,
        default !! k = Some (JDict sub) -> loaded !! k = Some (JDict l) ->
        exists m, _merge_settings sub (JDict l) = Ok m /\
                  merged !! k = Some (JDict m)) /\
    (forall k v,
        loaded !! k = Some v -> isinstance_dict v = false ->
        merged !! k = Some v) /\
    (forall k v d,
        loaded !! k = Some v -> default !! k = Some d ->
        isinstance_dict d = false -> merged !! k = Some v) /\
    (forall k v,
        loaded !! k = Some v -> default !! k = None -> merged !! k = Some v) /\
    (forall k, loaded !! k = None -> merged !! k = default !! k) /\
    (forall home self w file,
        default = default_settings_literal home ->
        nodes w !! config_file self = Some file ->
        body file = Document (JDict loaded) ->
        exists self',
          load_settings home self w = (Ok self', w) /\
          settings self' = merged /\
          default_settings self' = default).
Proof.
  exists (merge_items default (JDict loaded)).
  split; [reflexivity|].
  repeat split.
  - intros k [d Hd]. rewrite merge_items_lookup, Hd.
    destruct (loaded !! k) as [v|]; [|by eexists].
    destruct d, v; by eexists.
  - intros k sub l Hd Hl. exists (merge_items sub (JDict l)).
    split; [reflexivity|]. by rewrite merge_items_lookup, Hl, Hd.
  - intros k v Hl Hv. rewrite merge_items_lookup, Hl.
    destruct (default !! k) as [[]|]; destruct v; done.
  - intros k v d Hl Hd Hnd. rewrite merge_items_lookup, Hl, Hd.
    destruct d; done.
  - intros k v Hl Hd. by rewrite merge_items_lookup, Hl, Hd.
  - intros k Hl. by rewrite merge_items_lookup, Hl.
  - intros home self w file -> Hfile Hbody.
    eexists. split; [by eapply load_settings_document|]. done.
Qed.

(** A file that sets one entry of an unknown category: the merge keeps
    the categories of the defaults and the entry of the file. *)
Lemma merge_settings_spec_witness :
  exists merged,
    _merge_settings (default_settings_literal Samples.home)
      (JDict {[ "extra" := JNum 1 ]}) = Ok merged /\
    is_Some (merged !! "advanced") /\
    merged !! "extra" = Some (JNum 1).
Proof.
  destruct (merge_settings_spec (default_settings_literal Samples.home)
              {[ "extra" := JNum 1 ]})
    as (merged & Hmerged & Hkeys & _ & Hleaf & _).
  exists merged.
  split; [exact Hmerged|].
  split.
  - apply Hkeys. vm_compute. eauto.
  - apply Hleaf; vm_compute; reflexivity.
Defined.

(** The example of the specification: a file that only sets [scan_pdf]. *)
Example merge_partial_file :
  exists self',
    load_settings Samples.home (Samples.store ∅)
      (Samples.world_with [(Samples.config_file, Samples.partial_file)] false 0)
    = (Ok self',
       Samples.world_with [(Samples.config_file, Samples.partial_file)] false 0) /\
    fst (get self' "scan_options" (Some "scan_pdf")) = Ok (JBool false) /\
    fst (get self' "scan_options" (Some "scan_elf")) = Ok (JBool true) /\
    fst (get self' "scan_options" (Some "max_recursion")) = Ok (JNum 15) /\
    fst (get self' "advanced" (Some "scan_threads")) = Ok (JNum 4).
Proof.
  eexists. split.
  - eapply load_settings_document; [vm_compute; reflexivity | reflexivity].
  - vm_compute. done.
Qed.

Lemma flat_categories_lookup d category sub key x :
  flat_categories d = true ->
  d !! category = Some (JDict sub) -> sub !! key = Some x ->
  isinstance_dict x = false.
Proof.
  intros Hflat Hc Hk. unfold flat_categories in Hflat.
  rewrite forallb_forall in Hflat.
  apply elem_of_map_to_list, list_elem_of_In in Hc. apply Hflat in Hc. cbn in Hc.
  rewrite forallb_forall in Hc.
  apply elem_of_map_to_list, list_elem_of_In in Hk. apply Hc in Hk. cbn in Hk.
  by apply negb_true_iff.
Qed.

Lemma default_settings_flat home :
  flat_categories (default_settings_literal home) = true.
Proof. vm_compute. reflexivity. Qed.

(** *** Errors while loading *)

(** C8.  When the settings file is there and reading or parsing it raises,
    or the document read is no dictionary so that merging it raises,
    [load_settings] returns normally, the settings are the defaults, the
    files are untouched and one line about the error is printed. *)
Theorem load_settings_error_falls_back
    (home : path) (self : t) (w : world) (e : exn) :
  exists_in (nodes w) (config_file self) = true ->
  (fst (read_json (config_file self) w) = Raise e \/
   exists doc,
     fst (read_json (config_file self) w) = Ok doc /\
     _merge_settings (default_settings_literal home) doc = Raise e) ->
  load_settings home self w =
    (Ok (mkSettings (config_dir self) (config_file self)
           (default_settings_literal home) (default_settings_literal home)),
     mkWorld (nodes w) (read_only w) (now w)
             (stdout w ++ [Printed "Error loading settings" e])).
Proof.
  intros Hex Herr.
  pose proof (read_json_world (config_file self) w) as Hw.
  unfold load_settings, exists_, bind, get_world, ret, try_except, lift, print.
  cbv beta iota zeta. cbn [config_file default_settings with_settings].
  rewrite Hex. cbv beta iota.
  destruct (read_json (config_file self) w) as [[doc|e'] w'] eqn:Hread;
    cbn in Hw; subst w'.
  - destruct Herr as [Hr|(doc' & Hr & Hm)]; cbn in Hr; [done|].
    injection Hr as <-. by rewrite Hm.
  - destruct Herr as [Hr|(doc' & Hr & _)]; cbn in Hr; [|done].
    by injection Hr as ->.
Qed.

(** A settings file that is no JSON text. *)
Lemma load_settings_error_falls_back_witness :
  load_settings Samples.home (Samples.store ∅)
    (Samples.world_with [(Samples.config_file, Samples.sample)] false 0)
  = (Ok (Samples.store (default_settings_literal Samples.home)),
     mkWorld (nodes (Samples.world_with [(Samples.config_file, Samples.sample)] false 0))
             false 0 [Printed "Error loading settings" ValueError]).
Proof.
  apply (load_settings_error_falls_back Samples.home (Samples.store ∅)
           (Samples.world_with [(Samples.config_file, Samples.sample)] false 0)
           ValueError).
  - vm_compute. reflexivity.
  - left. vm_compute. reflexivity.
Defined.

(** *** [get] *)

(** C10, as the code has it.  [get] hands the instance back unchanged;
    without a key it never raises and gives the empty mapping for an absent
    category; with a key it gives [None] for an absent category and for a
    key absent from a category that is a dictionary, and returns normally
    whenever the category is absent or a dictionary; when the category
    holds a value that is no dictionary it raises [AttributeError]. *)
Theorem get_read_only_and_total_on_dicts (self : t) (category : string) :
  (forall key, snd (get self category key) = self) /\
  (exists r, get self category None = (Ok r, self)) /\
  (settings self !! category = None ->
     get self category None = (Ok (JDict ∅), self) /\
     forall k, get self category (Some k) = (Ok JNull, self)) /\
  (forall d k,
     settings self !! category = Some (JDict d) ->
     (exists r, get self category (Some k) = (Ok r, self)) /\
     (d !! k = None -> get self category (Some k) = (Ok JNull, self))) /\
  (forall v k,
     settings self !! category = Some v -> isinstance_dict v = false ->
     get self category (Some k) = (Raise AttributeError, self)).
Proof.
  unfold get, dict_get, dict_get_default. repeat split.
  - intros [k|]; [|done].
    destruct (settings self !! category) as [[]|]; done.
  - by eexists.
  - by rewrite H.
  - intros k. rewrite H. by rewrite lookup_empty.
  - rewrite H. by eexists.
  - intros Hk. by rewrite H, Hk.
  - intros v k Hv Hnd. rewrite Hv. by destruct v.
Qed.

Lemma get_read_only_and_total_on_dicts_witness :
  get (Samples.store ∅) "scan_options" None = (Ok (JDict ∅), Samples.store ∅) /\
  get (Samples.store ∅) "scan_options" (Some "scan_pdf") = (Ok JNull, Samples.store ∅) /\
  get (Samples.store {[ "scan_options" := JNum 5 ]}) "scan_options" (Some "scan_pdf")
    = (Raise AttributeError, Samples.store {[ "scan_options" := JNum 5 ]}).
Proof.
  pose proof (get_read_only_and_total_on_dicts (Samples.store ∅) "scan_options")
    as (_ & _ & Habsent & _).
  pose proof (get_read_only_and_total_on_dicts
                (Samples.store {[ "scan_options" := JNum 5 ]}) "scan_options")
    as (_ & _ & _ & _ & Hodd).
  destruct (Habsent eq_refl) as [H1 H2].
  split; [exact H1|]. split; [exact (H2 "scan_pdf")|].
  exact (Hodd (JNum 5) "scan_pdf" eq_refl eq_refl).
Defined.

(** A store loaded from a file whose [scan_options] entry is a number:
    [get] with a key raises. *)
Lemma get_raises_on_loaded_number :
  let '(loaded, _) :=
    init Samples.home
      (Samples.world_with [(Samples.config_file, Samples.odd_file)] false 0) in
  match loaded with
  | Ok self =>
      settings self !! "scan_options" = Some (JNum 5) /\
      fst (get self "scan_options" (Some "scan_pdf")) = Raise AttributeError
  | Raise _ => False
  end.
Proof. vm_compute. split; reflexivity. Qed.

(** *** [set] and a fresh store *)





(** *** Merging twice *)

Lemma dict_depth_lookup (items : dict) (k : string) (v : json) :
  items !! k = Some v -> (dict_depth v < dict_depth (JDict items))%nat.
Proof.
  cbn [dict_depth]. intros Hk. apply Nat.lt_succ_r. revert k v Hk.
  apply (map_fold_weak_ind (fun r m => forall k v, m !! k = Some v ->
           (dict_depth v <= r)%nat)).
  - intros k v. by rewrite lookup_empty.
  - intros i x m r Hi IH k v Hk.
    destruct (decide (i = k)) as [->|Hne].
    + rewrite lookup_insert_eq in Hk. injection Hk as ->. lia.
    + rewrite lookup_insert_ne in Hk by done. specialize (IH k v Hk). lia.
Qed.

(** Induction over the values of a dictionary. *)
Lemma nested_dict_ind (P : dict -> Prop) :
  (forall d, (forall k sub, d !! k = Some (JDict sub) -> P sub) -> P d) ->
  forall d, P d.
Proof.
  intros Hstep d. remember (dict_depth (JDict d)) as n eqn:Hn.
  revert d Hn. induction (lt_wf n) as [n _ IH]. intros d ->.
  apply Hstep. intros k sub Hk. eapply IH; [|reflexivity].
  by eapply dict_depth_lookup.
Qed.

(** Merging a dictionary into itself changes nothing. *)
Lemma merge_items_self (d : dict) : merge_items d (JDict d) = d.
Proof.
  induction d as [d IH] using nested_dict_ind.
  apply map_eq. intros k. rewrite merge_items_lookup.
  destruct (d !! k) as [v|] eqn:Hk; [|done].
  destruct v; try done. by rewrite (IH k items Hk).
Qed.

(** Merging the result of a merge once more changes nothing. *)
Lemma merge_items_idempotent (loaded default : dict) :
  merge_items default (JDict (merge_items default (JDict loaded)))
  = merge_items default (JDict loaded).
Proof.
  revert default. induction loaded as [loaded IH] using nested_dict_ind.
  intros default. apply map_eq. intros k.
  rewrite (merge_items_lookup default (merge_items default (JDict loaded))).
  rewrite (merge_items_lookup default loaded).
  destruct (loaded !! k) as [lv|] eqn:Hl.
  - destruct (default !! k) as [dv|] eqn:Hd.
    + destruct dv; try (by destruct lv).
      destruct lv; try done.
      by rewrite (IH k _ Hl).
    + by destruct lv.
  - destruct (default !! k) as [dv|] eqn:Hd; [|done].
    destruct dv; try done. by rewrite merge_items_self.
Qed.

(** [load_settings] never raises and never changes a file; what it stores
    is the defaults or a merge with the defaults. *)
Lemma load_settings_cases home self w :
  exists self' w',
    load_settings home self w = (Ok self', w') /\
    nodes w' = nodes w /\ read_only w' = read_only w /\ now w' = now w /\
    config_file self' = config_file self /\
    config_dir self' = config_dir self /\
    default_settings self' = default_settings_literal home /\
    (settings self' = default_settings_literal home \/
     exists loaded,
       settings self' = merge_items (default_settings_literal home) (JDict loaded)).
Proof.
  pose proof (read_json_world (config_file self) w) as Hw.
  unfold load_settings, exists_, bind, get_world, ret, try_except, lift, print.
  cbv beta iota zeta. cbn [config_file default_settings with_settings].
  destruct (exists_in (nodes w) (config_file self)); cbv beta iota.
  - destruct (read_json (config_file self) w) as [[doc|e] w1]; cbn in Hw; subst w1.
    + destruct doc; cbn [_merge_settings];
        eexists _, _; (split; [reflexivity|]); cbn; repeat split; eauto.
    + eexists _, _. split; [reflexivity|]. cbn. repeat split; eauto.
  - eexists _, _. split; [reflexivity|]. cbn. repeat split; eauto.
Qed.

Lemma init_inv home w self w' :
  init home w = (Ok self, w') ->
  read_only w' = read_only w /\
  dirs_from (nodes w') [] (home ++ [".config"; "xclamav"]) = true /\
  (forall p n, nodes w !! p = Some n -> nodes w' !! p = Some n) /\
  config_file self = (home ++ [".config"; "xclamav"]) ++ ["settings.json"] /\
  default_settings self = default_settings_literal home /\
  merged_with_defaults home (settings self).
Proof.
  unfold init, ensure_config_dir, mkdir_parents. cbn [config_dir]. intros Hinit.
  apply bind_ok_inv in Hinit as ([] & w1 & Hmk & Hload).
  pose proof (mkdir_from_creates _ _ _ _ Hmk) as Hdirs.
  apply mkdir_from_inv in Hmk as (Hro & _ & _ & Hkeep).
  destruct (load_settings_cases home
              (mkSettings (home ++ [".config"; "xclamav"])
                 ((home ++ [".config"; "xclamav"]) ++ ["settings.json"]) ∅ ∅) w1)
    as (self' & w2 & Hl & Hn & Hr & _ & Hcf & _ & Hdef & Hset).
  rewrite Hl in Hload. injection Hload as <- <-.
  rewrite Hn, Hr. repeat split; try done.
  unfold merged_with_defaults. destruct Hset as [->|[loaded ->]].
  - apply merge_items_self.
  - apply merge_items_idempotent.
Qed.

(** *** The store between construction and restart *)


(** [save_settings] returns. *)
Lemma save_settings_returns `{Runtime} (self : t) (w : world) :
  exists w', save_settings self w = (Ok tt, w').
Proof.
  unfold save_settings, try_except, write_json, writable, bind, get_world,
    ret, raise, set_nodes, print.
  cbv beta iota zeta.
  destruct (read_only w); cbv beta iota; [by eexists|].
  destruct (is_dir_in (nodes w) (config_file self)); cbv beta iota; [by eexists|].
  destruct (negb (is_dir_in (nodes w) (parent (config_file self))));
    cbv beta iota; by eexists.
Qed.

(** What [set] does to the mapping in memory. *)
Lemma set_settings `{Runtime} self category key value w :
  (forall x, settings self !! category = Some x -> isinstance_dict x = true) ->
  exists d w',
    set self category key value w =
      (Ok tt,
       with_settings self
         (<[category := JDict (<[key := value]> d)]> (settings self)), w') /\
    dict_get_default category (JDict ∅) (settings self) = JDict d /\
    save_settings
      (with_settings self
         (<[category := JDict (<[key := value]> d)]> (settings self))) w = (Ok tt, w').
Proof.
  intros Hdict. unfold set, dict_get_default.
  destruct (settings self !! category) as [x|] eqn:Hc.
  - specialize (Hdict x eq_refl). destruct x; try done.
    rewrite Hc.
    destruct (save_settings_returns
      (with_settings self (<[category := JDict (<[key := value]> items)]> (settings self))) w)
      as (w' & Hsave).
    rewrite Hsave. by eexists _, _.
  - rewrite lookup_insert_eq. rewrite insert_insert_eq.
    destruct (save_settings_returns
      (with_settings self (<[category := JDict (<[key := value]> ∅)]> (settings self))) w)
      as (w' & Hsave).
    rewrite Hsave. by eexists _, _.
Qed.



Lemma merged_lookup home (s : dict) (c : string) :
  merged_with_defaults home s ->
  match s !! c with
  | None => default_settings_literal home !! c
  | Some v =>
      match default_settings_literal home !! c, v with
      | Some (JDict sub), JDict _ => Some (JDict (merge_items sub v))
      | _, _ => Some v
      end
  end = s !! c.
Proof. intros Hm. rewrite <- merge_items_lookup. by rewrite Hm. Qed.

(** [set] keeps a mapping that is merged with the defaults merged. *)
Lemma set_keeps_merged `{Runtime}
    (home : path) (self : t) (category key : string) (value : json) (w : world) :
  merged_with_defaults home (settings self) ->
  forall r self' w',
    set self category key value w = (r, self', w') ->
    merged_with_defaults home (settings self').
Proof.
  - intros Hm r self' w' Hset.
    assert (Hcases : (forall x, settings self !! category = Some x ->
                                isinstance_dict x = true) \/ self' = self).
    { destruct (settings self !! category) as [x|] eqn:Hc.
      - destruct (isinstance_dict x) eqn:Hx.
        + left. by intros ? [= <-].
        + right. unfold set in Hset. rewrite Hc in Hset. cbv beta iota zeta in Hset.
          rewrite Hc in Hset.
          destruct x; try done; by injection Hset as <- <- <-.
      - left. by intros. }
    destruct Hcases as [Hdict| ->]; [|done].
    destruct (set_settings self category key value w Hdict) as (d & w2 & Hs & Hd & _).
    rewrite Hs in Hset. injection Hset as <- <- <-.
    unfold merged_with_defaults. cbn [settings with_settings].
    apply map_eq. intros c. rewrite merge_items_lookup.
    pose proof (merged_lookup home (settings self) c Hm) as Hc'.
    destruct (decide (c = category)) as [->|Hc].
    + rewrite lookup_insert_eq.
      destruct (default_settings_literal home !! category) as [dv|] eqn:Hdef; [|done].
      destruct dv; try done. f_equal. f_equal.
      apply map_eq. intros k. rewrite merge_items_lookup.
      destruct (decide (k = key)) as [->|Hk].
      * rewrite lookup_insert_eq.
        destruct (items !! key) as [x|] eqn:Hx; [|done].
        pose proof (flat_categories_lookup _ _ _ _ _ (default_settings_flat home) Hdef Hx).
        destruct x, value; done.
      * rewrite lookup_insert_ne by (by apply not_eq_sym).
        unfold dict_get_default in Hd.
        destruct (settings self !! category) as [x|] eqn:Hx; [|done].
        subst x. injection Hc' as Hc'.
        change (merge_items items (JDict d) = d) in Hc'.
        rewrite <- merge_items_lookup. by rewrite Hc'.
    + by rewrite lookup_insert_ne by (by apply not_eq_sym).
Qed.

(** The mapping of a constructed store is unchanged by another merge with
    the defaults, and [set] keeps it so. *)
Theorem settings_stay_merged `{Runtime}
    (home : path) (self : t) (category key : string) (value : json) (w : world) :
  (forall w0 w1 self0, init home w0 = (Ok self0, w1) ->
     merged_with_defaults home (settings self0)) /\
  (merged_with_defaults home (settings self) ->
   forall r self' w',
     set self category key value w = (r, self', w') ->
     merged_with_defaults home (settings self')).
Proof.
  split.
  - intros w0 w1 self0 Hinit. by apply init_inv in Hinit as (_ & _ & _ & _ & _ & ?).
  - apply set_keeps_merged.
Qed.




(** Merging is idempotent: what a merge with the defaults gives is left as
    it is by another merge with the same defaults, and so are the defaults
    themselves. *)
Theorem merge_settings_idempotent (default loaded : dict) :
  (exists merged,
     _merge_settings default (JDict loaded) = Ok merged /\
     _merge_settings default (JDict merged) = Ok merged) /\
  _merge_settings default (JDict default) = Ok default.
Proof.
  split.
  - exists (merge_items default (JDict loaded)). split; [reflexivity|].
    unfold _merge_settings. f_equal. apply merge_items_idempotent.
  - unfold _merge_settings. f_equal. apply merge_items_self.
Qed.

(** A store that holds the defaults, after one [set] on a read-only file
    system. *)
Lemma settings_stay_merged_witness :
  let '(_, self', _) :=
    set (H := Samples.plain_runtime)
        (Samples.store (default_settings_literal Samples.home))
        "interface" "language" (JStr "he")
        (Samples.world_with [] true Samples.noon) in
  merged_with_defaults Samples.home (settings self').
Proof.
  destruct (set (H := Samples.plain_runtime)
              (Samples.store (default_settings_literal Samples.home))
              "interface" "language" (JStr "he")
              (Samples.world_with [] true Samples.noon))
    as [[r self'] w'] eqn:Hset.
  apply (proj2 (settings_stay_merged (H := Samples.plain_runtime) Samples.home
                  (Samples.store (default_settings_literal Samples.home))
                  "interface" "language" (JStr "he")
                  (Samples.world_with [] true Samples.noon))
               (merge_items_self _) r self' w' Hset).
Defined.

End SettingsSpec.

(* ===================================================================== *)
(** ** Properties of the quarantine manager *)
(* ===================================================================== *)

Module QuarantineSpec.

Import QuarantineManager OsFacts PathFacts.
Local Open Scope os_scope.






(** C3, at a file with an extension.  [quarantine_file] succeeds and moves
    the file under [<timestamp>_<name>_<threat>]; [with_suffix] replaces
    the text after the last dot of that name, so the sidecar is
    [<timestamp>_virus.info] and not the quarantine name with [".info"]
    added; [list_quarantined_files] takes [".info"] off the sidecar, looks
    for [<timestamp>_virus], finds nothing there and lists no entry. *)
Theorem quarantine_file_then_list_misses_entry :
  let '(r, w1) :=
    quarantine_file (H := Samples.plain_runtime) Samples.manager
      "/home/u/virus.exe" "Eicar-Test" Samples.infected_world in
  r = Ok true /\
  nodes w1 !! (Samples.home ++ ["virus.exe"]) = None /\
  nodes w1 !! (Samples.quarantine_dir ++ ["20240101_120000_virus.exe_Eicar-Test"])
    = Some Samples.sample /\
  nodes w1 !! (Samples.quarantine_dir ++ ["20240101_120000_virus.info"])
    = Some (Samples.sidecar "/home/u/virus.exe" "Eicar-Test") /\
  nodes w1 !! (Samples.quarantine_dir ++ ["20240101_120000_virus.exe_Eicar-Test.info"])
    = None /\
  with_suffix (Samples.quarantine_dir ++ ["20240101_120000_virus.info"]) ""
    = Ok (Samples.quarantine_dir ++ ["20240101_120000_virus"]) /\
  fst (list_quarantined_files Samples.manager w1) = Ok [].
Proof. vm_compute. repeat split; reflexivity. Qed.

(** C4, at the entries [quarantine_file] makes.  Five days after the
    move, with [retention_days] 0: for [virus.exe] the sweep removes the
    sidecar and leaves the quarantined file; for [my.file.txt] the sidecar
    is [<timestamp>_my.file.info], the sweep looks for [<timestamp>_my.file]
    and [<timestamp>_my.info], and removes nothing at all. *)
Theorem cleanup_old_files_leaves_entries :
  (let '(_, w1) :=
     quarantine_file (H := Samples.plain_runtime) Samples.manager
       "/home/u/virus.exe" "Eicar-Test" Samples.infected_world in
   let '(r, w2) :=
     cleanup_old_files Samples.manager
       (Samples.store {[ "quarantine" := JDict {[ "retention_days" := JNum 0 ]} ]})
       (Samples.later w1) in
   r = Ok tt /\
   nodes w2 !! (Samples.quarantine_dir ++ ["20240101_120000_virus.exe_Eicar-Test"])
     = Some Samples.sample /\
   nodes w2 !! (Samples.quarantine_dir ++ ["20240101_120000_virus.info"]) = None) /\
  (let '(_, w1) :=
     quarantine_file (H := Samples.plain_runtime) Samples.manager
       "/home/u/my.file.txt" "Eicar-Test" Samples.dotted_world in
   let '(r, w2) :=
     cleanup_old_files Samples.manager
       (Samples.store {[ "quarantine" := JDict {[ "retention_days" := JNum 0 ]} ]})
       (Samples.later w1) in
   r = Ok tt /\
   nodes w2 !! (Samples.quarantine_dir ++ ["20240101_120000_my.file.txt_Eicar-Test"])
     = Some Samples.sample /\
   nodes w2 !! (Samples.quarantine_dir ++ ["20240101_120000_my.file.info"])
     = Some (Samples.sidecar "/home/u/my.file.txt" "Eicar-Test")).
Proof. vm_compute. repeat split; reflexivity. Qed.

(** *** The sidecar and the way back from it *)

Lemma name_snoc (p : path) (c : string) : name (p ++ [c]) = c.
Proof. unfold name. apply last_last. Qed.

Lemma with_suffix_ok (p : path) (sfx : string) :
  name p <> "" ->
  with_suffix p sfx = Ok (parent p ++ [with_suffix_name (name p) sfx]).
Proof.
  intros Hn. unfold with_suffix.
  by destruct (String.eqb_spec (name p) "").
Qed.

Lemma with_suffix_name_info_nonempty (nm : string) :
  with_suffix_name nm ".info" <> "".
Proof.
  rewrite with_suffix_name_stem. intros Heq.
  apply (f_equal String.length) in Heq. rewrite length_append in Heq.
  cbn in Heq. lia.
Qed.

(** The path [list_quarantined_files] and [cleanup_old_files] derive from
    the sidecar of [q] is [q] again exactly when the name of [q] has no
    suffix, that is no dot other than a first or a last one. *)
Theorem sidecar_leads_back_iff_no_suffix (q info_file : path) :
  with_suffix q ".info" = Ok info_file ->
  (with_suffix info_file "" = Ok q <-> suffix q = "").
Proof.
  intros Hinfo.
  assert (Hname : name q <> "").
  { unfold with_suffix in Hinfo. by destruct (String.eqb_spec (name q) ""). }
  assert (Hq : q = parent q ++ [name q]).
  { unfold parent, name. apply app_removelast_last. by intros ->. }
  rewrite with_suffix_ok in Hinfo by done. injection Hinfo as <-.
  rewrite with_suffix_ok
    by (rewrite name_snoc; apply with_suffix_name_info_nonempty).
  rewrite name_snoc, parent_snoc. unfold suffix.
  rewrite <- (sidecar_name_round_trip (name q)) by done.
  split.
  - intros [= Heq]. rewrite Hq in Heq at 3.
    by apply app_inv_head in Heq as [= ->].
  - intros ->. by rewrite <- Hq.
Qed.

Lemma sidecar_leads_back_iff_no_suffix_witness :
  with_suffix (Samples.quarantine_dir ++ ["20240101_120000_virus.info"]) ""
    <> Ok (Samples.quarantine_dir ++ ["20240101_120000_virus.exe_Eicar-Test"]) /\
  with_suffix Samples.sidecar_plain "" = Ok Samples.quarantined_plain.
Proof.
  split.
  - intros Hback.
    apply (sidecar_leads_back_iff_no_suffix
             (Samples.quarantine_dir ++ ["20240101_120000_virus.exe_Eicar-Test"])
             (Samples.quarantine_dir ++ ["20240101_120000_virus.info"])) in Hback.
    + vm_compute in Hback. discriminate.
    + vm_compute. reflexivity.
  - apply (sidecar_leads_back_iff_no_suffix Samples.quarantined_plain).
    + vm_compute. reflexivity.
    + vm_compute. reflexivity.
Defined.

(** *** Deleting and sweeping *)



(** What [glob("*.info")] yields. *)
Lemma glob_info_spec d w :
  exists l,
    glob_info d w = (Ok l, w) /\
    forall p, p ∈ l ->
      parent p = d /\ matches_info (name p) = true /\ is_Some (nodes w !! p).
Proof.
  unfold glob_info, bind, get_world, ret. cbv beta iota zeta.
  destruct (is_dir_in (nodes w) d).
  - eexists. split; [reflexivity|]. intros p Hp.
    apply list_elem_of_filter in Hp as [(Hd & _ & Hm) Hin].
    split; [done|]. split; [done|].
    apply list_elem_of_fmap in Hin as ([p' n] & -> & Hin).
    apply elem_of_map_to_list in Hin. by eexists.
  - exists []. split; [reflexivity|]. intros p Hp. by apply elem_of_nil in Hp.
Qed.

Lemma cleanup_loop_recent self cutoff l w :
  (forall p, p ∈ l -> exists n, nodes w !! p = Some n /\ cutoff <= st_mtime n) ->
  cleanup_loop self cutoff l w = (Ok tt, w).
Proof.
  induction l as [|p l IH]; intros Hall; [done|].
  cbn [cleanup_loop]. unfold bind at 1.
  destruct (Hall p) as (n & Hn & Hle); [by left|].
  assert (cleanup_entry self cutoff p w = (Ok tt, w)) as ->.
  { unfold cleanup_entry.
    cbv beta iota zeta delta [try_except bind stat get_world ret raise lift]. rewrite Hn.
    replace (st_mtime n <? cutoff) with false by (symmetry; apply Z.ltb_ge; lia).
    reflexivity. }
  apply IH. intros p' Hp'. apply Hall. by right.
Qed.

(** A sweep whose cutoff, the time of the call minus [retention_days]
    days, is not later than the modification time of any sidecar in the
    quarantine directory returns normally and changes nothing. *)
Theorem cleanup_old_files_keeps_recent
    (self : t) (settings : XClamAVSettings.t) (w : world)
    (retention_days : json) (days cutoff_date : Z) :
  XClamAVSettings.get settings "quarantine" (Some "retention_days")
    = (Ok retention_days, settings) ->
  timedelta_days retention_days = Ok days ->
  minus_days (now w) days = Ok cutoff_date ->
  (forall p n,
     nodes w !! p = Some n -> parent p = quarantine_path self ->
     matches_info (name p) = true -> cutoff_date <= st_mtime n) ->
  cleanup_old_files self settings w = (Ok tt, w).
Proof.
  intros Hget Hdays Hcut Hrecent.
  unfold cleanup_old_files. rewrite Hget. cbn [fst].
  unfold bind at 1, lift at 1. unfold bind at 1, lift at 1. rewrite Hdays.
  unfold bind at 1, get_world. unfold bind at 1, lift at 1. rewrite Hcut.
  destruct (glob_info_spec (quarantine_path self) w) as (l & Hglob & Hl).
  unfold bind. rewrite Hglob.
  apply cleanup_loop_recent. intros p Hp.
  destruct (Hl p Hp) as (Hd & Hm & [n Hn]). exists n. split; [done|].
  by eapply Hrecent.
Qed.

(** A sidecar written at noon and a window of thirty days, five days
    later. *)
Lemma cleanup_old_files_keeps_recent_witness :
  cleanup_old_files Samples.manager
    (Samples.store (XClamAVSettings.default_settings_literal Samples.home))
    Samples.plain_world = (Ok tt, Samples.plain_world).
Proof.
  apply (cleanup_old_files_keeps_recent Samples.manager _ Samples.plain_world
           (JNum 30) 30 (Samples.noon + Samples.five_days - 30 * microseconds_per_day)).
  - vm_compute. reflexivity.
  - reflexivity.
  - vm_compute. reflexivity.
  - intros p n Hn Hd Hm.
    assert (Hcases : p = Samples.sidecar_plain).
    { destruct (decide (p = Samples.sidecar_plain)) as [|Hne]; [done|].
      exfalso. revert Hn Hd Hm.
      unfold Samples.plain_world, Samples.world_with. cbn [nodes].
      rewrite lookup_union_Some_raw. intros [Hn|[_ Hn]].
      - rewrite !list_to_map_cons in Hn.
        apply lookup_insert_Some in Hn as [[<- _]|[_ Hn]]; [by vm_compute|].
        apply lookup_insert_Some in Hn as [[<- _]|[_ Hn]]; [done|].
        by rewrite list_to_map_nil, lookup_empty in Hn.
      - unfold Samples.skeleton in Hn. rewrite !list_to_map_cons in Hn.
        repeat (apply lookup_insert_Some in Hn as [[<- _]|[_ Hn]]; [by vm_compute|]).
        by rewrite list_to_map_nil, lookup_empty in Hn. }
    subst p. vm_compute in Hn. injection Hn as <-. vm_compute. discriminate.
Defined.

(** [retention_days] that is missing or no number: the sweep raises
    [TypeError], uncaught, and has changed nothing; more than 999999999
    days raise [OverflowError]. *)
Theorem cleanup_old_files_raises_on_bad_retention
    (self : t) (settings : XClamAVSettings.t) (w : world) (d : dict) :
  XClamAVSettings.settings settings !! "quarantine" = Some (JDict d) ->
  (d !! "retention_days" = None ->
     cleanup_old_files self settings w = (Raise TypeError, w)) /\
  (forall v, d !! "retention_days" = Some v ->
     match v with JNum _ | JBool _ => False | _ => True end ->
     cleanup_old_files self settings w = (Raise TypeError, w)) /\
  (forall n, d !! "retention_days" = Some (JNum n) -> 999999999 < Z.abs n ->
     cleanup_old_files self settings w = (Raise OverflowError, w)).
Proof.
  intros Hq. unfold cleanup_old_files, XClamAVSettings.get, dict_get, dict_get_default.
  rewrite Hq. cbn [fst]. repeat split.
  - intros ->. reflexivity.
  - intros v -> Hv. by destruct v.
  - intros n -> Hn. unfold bind, lift, timedelta_days.
    replace (Z.abs n <=? 999999999) with false by (symmetry; apply Z.leb_gt; lia).
    reflexivity.
Qed.

Lemma cleanup_old_files_raises_on_bad_retention_witness :
  cleanup_old_files Samples.manager
    (Samples.store {[ "quarantine" := JDict {[ "retention_days" := JStr "30" ]} ]})
    Samples.plain_world = (Raise TypeError, Samples.plain_world).
Proof.
  destruct (cleanup_old_files_raises_on_bad_retention Samples.manager
              (Samples.store {[ "quarantine" := JDict {[ "retention_days" := JStr "30" ]} ]})
              Samples.plain_world {[ "retention_days" := JStr "30" ]})
    as (_ & Hbad & _).
  - reflexivity.
  - apply (Hbad (JStr "30")); [reflexivity | exact I].
Defined.

(** *** Listing *)





(** *** Quarantine and back *)








(** *** Construction and failure *)


Lemma try_except_total (m : M bool) (pre : string) (w : world) :
  exists b w',
    try_except m (fun e => let* _ := print pre e in ret false) w = (Ok b, w').
Proof.
  unfold try_except, bind, print, ret.
  destruct (m w) as [[b|e] w1]; by eexists _, _.
Qed.

(** [quarantine_file] and [restore_file] never raise.  For a source that
    does not exist [quarantine_file] returns [False] and does nothing, not
    even print; on a read-only file system it returns [False] for a source
    that exists, no node has changed and one line is printed. *)
Theorem quarantine_file_failures `{Runtime}
    (self : t) (source_path threat_name : string) (w : world) :
  (exists b w', quarantine_file self source_path threat_name w = (Ok b, w')) /\
  (forall quarantine_file original_path,
     exists b w', restore_file self quarantine_file original_path w = (Ok b, w')) /\
  (exists_in (nodes w) (Path source_path) = false ->
     quarantine_file self source_path threat_name w = (Ok false, w)) /\
  (exists_in (nodes w) (Path source_path) = true -> read_only w = true ->
     quarantine_file self source_path threat_name w =
       (Ok false,
        mkWorld (nodes w) (read_only w) (now w)
                (stdout w ++ [Printed "Error quarantining file" OSError]))).
Proof.
  split; [apply try_except_total|]. split; [intros; apply try_except_total|].
  unfold quarantine_file, rename.
  cbv beta iota zeta delta [try_except bind exists_ get_world ret raise lift print
                            writable set_nodes].
  split.
  - by intros ->.
  - intros -> Hro. cbn [negb].
    destruct (nodes w !! Path source_path); rewrite ?Hro; cbv beta iota;
      cbn [nodes read_only now stdout]; by rewrite ?Hro.
Qed.

Lemma quarantine_file_failures_witness :
  quarantine_file (H := Samples.plain_runtime) Samples.manager
    "/home/u/nothing" "Eicar-Test" Samples.infected_world
    = (Ok false, Samples.infected_world) /\
  quarantine_file (H := Samples.plain_runtime) Samples.manager
    "/home/u/virus.exe" "Eicar-Test"
    (Samples.world_with [(Samples.home ++ ["virus.exe"], Samples.sample)] true Samples.noon)
    = (Ok false,
       mkWorld
         (nodes (Samples.world_with [(Samples.home ++ ["virus.exe"], Samples.sample)]
                   true Samples.noon))
         true Samples.noon [Printed "Error quarantining file" OSError]).
Proof.
  split.
  - apply (quarantine_file_failures (H := Samples.plain_runtime)). vm_compute. reflexivity.
  - apply (quarantine_file_failures (H := Samples.plain_runtime) Samples.manager
             "/home/u/virus.exe" "Eicar-Test"
             (Samples.world_with [(Samples.home ++ ["virus.exe"], Samples.sample)]
                                 true Samples.noon)).
    + vm_compute. reflexivity.
    + reflexivity.
Defined.

(** *** The sweep over plain entries *)









End QuarantineSpec.

(* ===================================================================== *)
(** ** Properties of the scanner wrapper *)
(* ===================================================================== *)

Module ScannerSpec.

Import ClamAVWrapper.



(** C9, as the code has it.  With the flag set, [scan_path] returns
    [False], has no effect and leaves the instance as it is; with the flag
    clear it returns [True], and its effects are, in this order, setting
    the flag and starting one worker.  So a call starts a worker only from
    a clear flag, and the flag is set when the worker starts.  In the
    system of wrapper, workers and children, a blocked call changes
    nothing, and a call that adds a worker was made with the flag clear
    and leaves it set. *)
Theorem scan_path_gate `{Runtime} (self : t) (path : string) :
  (scanning self = true -> scan_path self path = (self, [], false)) /\
  (scanning self = false ->
     scan_path self path =
       (mkWrapper true (scan_process self) (scan_options self),
        [SetScanning true; StartThread path], true)) /\
  (forall self' effects r,
     scan_path self path = (self', effects, r) ->
     (exists p, In (StartThread p) effects) ->
     scanning self = false /\ scanning self' = true /\ r = true /\
     exists rest, effects = SetScanning true :: rest) /\
  (forall s s',
     wrapper s = self -> step (CallScanPath path) s = Some s' ->
     (scanning self = true -> s' = s) /\
     ((length (threads s) < length (threads s'))%nat ->
        scanning self = false /\ scanning (wrapper s') = true /\
        threads s' = threads s ++ [Started path])).
Proof.
  split; [|split; [|split]].
  - unfold scan_path. by intros ->.
  - unfold scan_path. by intros ->.
  - intros self' effects r Hcall [p Hp]. unfold scan_path in Hcall.
    destruct (scanning self); injection Hcall as <- <- <-; [by destruct Hp|].
    repeat split. by eexists.
  - intros s s' Hw Hstep. cbn in Hstep. rewrite Hw in Hstep.
    unfold scan_path in Hstep.
    destruct (scanning self); injection Hstep as <-; cbn.
    + split.
      * intros _. rewrite app_nil_r, <- Hw. by destruct s.
      * rewrite app_nil_r. lia.
    + split; [done|]. intros _. done.
Qed.

Lemma scan_path_gate_witness :
  scan_path (mkWrapper true (Some 0%nat) ∅) "/home/u"
    = (mkWrapper true (Some 0%nat) ∅, [], false) /\
  scan_path init "/home/u"
    = (mkWrapper true None ∅, [SetScanning true; StartThread "/home/u"], true).
Proof.
  pose proof (scan_path_gate (H := Samples.plain_runtime)
                (mkWrapper true (Some 0%nat) ∅) "/home/u") as (Hset & _).
  pose proof (scan_path_gate (H := Samples.plain_runtime) init "/home/u")
    as (_ & Hclear & _).
  split; [exact (Hset eq_refl) | exact (Hclear eq_refl)].
Defined.

(** After a scan was stopped and two more were started, two children run
    at once: the flag was cleared by the worker of the stopped scan while
    the second scan was under way. *)
Lemma two_scans_run_at_once :
  ~ (forall s, reachable (H := Samples.plain_runtime) s -> (running_scans s <= 1)%nat).
Proof.
  intros Hone.
  specialize (Hone (default initial (run (H := Samples.plain_runtime)
                                        stop_and_restart initial))).
  assert (Hrun : running_scans
            (default initial (run (H := Samples.plain_runtime)
                                stop_and_restart initial)) = 2%nat)
    by (vm_compute; reflexivity).
  rewrite Hrun in Hone.
  assert (2 <= 1)%nat; [|lia].
  apply Hone. exists stop_and_restart. vm_compute. reflexivity.
Qed.

(** *** Workers and their completions *)







End ScannerSpec.
